(** * Verification of the policy-server evaluation core

    Shallow embedding of [src/src/worker.rs] (the policy worker and its
    response shaper) and [src/src/api.rs] (the HTTP validation handler).
    Wire types of the [policy_evaluator] crate and of [admission_review]
    are modelled with the fields the core reads or writes. *)

From Stdlib Require Import String Ascii.
From stdpp Require Import base gmap strings list.

Open Scope string_scope.

(* ------------------------------------------------------------------ *)
(** ** Data model *)

(** Rust's [Result]. *)
Inductive result (A E : Type) : Type :=
| Ok (a : A)
| Err (e : E).
Arguments Ok {A E} a.
Arguments Err {A E} e.

Definition is_err {A E} (r : result A E) : bool :=
  match r with Ok _ => false | Err _ => true end.

(** [Option::is_some]. *)
Definition is_some {A} (o : option A) : bool :=
  match o with Some _ => true | None => false end.

(** [crate::settings::PolicyMode]. *)
Inductive PolicyMode := Protect | Monitor.

(** [policy_evaluator::admission_response::AdmissionResponseStatus];
    [code] is a [u16]. *)
Record AdmissionResponseStatus := {
  message : option string;
  code : option N
}.

(** [policy_evaluator::admission_response::AdmissionResponse]. *)
Record AdmissionResponse := {
  uid : string;
  allowed : bool;
  patch_type : option string;
  patch : option string;
  status : option AdmissionResponseStatus;
  audit_annotations : option (list (string * string));
  warnings : option (list string)
}.

(** [AdmissionResponse::reject(uid, message, code)] of the
    [policy_evaluator] crate: its first argument is the [uid] of the
    response, the others fill the status; every other field is the
    default. *)
Definition AdmissionResponse_reject (uid0 message0 : string) (code0 : N)
  : AdmissionResponse :=
  {| uid := uid0;
     allowed := false;
     patch_type := None;
     patch := None;
     status := Some {| message := Some message0; code := Some code0 |};
     audit_annotations := None;
     warnings := None |}.

(** Group/version/kind triple of the admission request. *)
Record GroupVersionKind := {
  group : string;
  version : string;
  kind : string
}.

Definition GroupVersionKind_default : GroupVersionKind :=
  {| group := ""; version := ""; kind := "" |}.

(** Group/version/resource triple of the admission request. *)
Record GroupVersionResource := {
  res_group : string;
  res_version : string;
  resource : string
}.

(** Modelled from the spec: [crate::admission_review::AdmissionRequest]
    (not under src/), with the fields the spec says the core reads; the
    object payload is kept as its opaque JSON text. *)
Record AdmissionRequest := {
  req_uid : string;
  req_kind : GroupVersionKind;
  req_resource : GroupVersionResource;
  sub_resource : option string;
  name : option string;
  namespace : option string;
  operation : string;
  request_kind : option GroupVersionKind;
  object : string
}.

(** Modelled from the spec: [crate::admission_review::AdmissionReview]
    (not under src/): the core reads [request] and writes [response]. *)
Record AdmissionReview := {
  request : option AdmissionRequest;
  response : option AdmissionResponse
}.

(** Modelled from the spec: [AdmissionReview::new_with_response] (not
    under src/): a review whose [response] field holds the given
    response. *)
Definition AdmissionReview_new_with_response (vr : AdmissionResponse)
  : AdmissionReview :=
  {| request := None; response := Some vr |}.

(** [serde_json::Value]. *)
#[local] Set Warnings "-register-all".
Inductive Value :=
| Null
| VBool (b : bool)
| VNumber (z : Z)
| VString (s : string)
| VArray (l : list Value)
| VObject (l : list (string * Value)).

(** [serde_json::Error], kept as its [{:?}] rendering. *)
Record SerdeError := { serde_error_debug : string }.

(** [policy_evaluator::PolicyEvaluator]: the sandbox instance.  Only its
    policy id and its [validate] entry point are used by the worker. *)
Record PolicyEvaluator := {
  policy_evaluator_policy_id : string;
  policy_evaluator_validate : Value -> AdmissionResponse
}.

(** [PolicyEvaluatorWithSettings] of worker.rs. *)
Record PolicyEvaluatorWithSettings := {
  policy_evaluator : PolicyEvaluator;
  policy_mode : PolicyMode;
  allowed_to_mutate : bool;
  always_accept_admission_reviews_on_namespace : option string
}.

(** The one-shot reply sink ([oneshot::Sender<Option<AdmissionResponse>>]):
    an identity and whether its receiver is still alive. *)
Record Sink := {
  sink_id : nat;
  receiver_alive : bool
}.

(** [crate::communication::EvalRequest] (the trace context is not
    modelled). *)
Record EvalRequest := {
  policy_id : string;
  req : AdmissionRequest;
  resp_chan : Sink
}.

(** [Worker]: the evaluator map (the queue is the list of requests fed to
    [run], the engine is unused). *)
Record Worker := {
  evaluators : gmap string PolicyEvaluatorWithSettings
}.

(** [metrics::PolicyEvaluation]. *)
Record PolicyEvaluation := {
  policy_name : string;
  pe_policy_mode : PolicyMode;
  resource_namespace : option string;
  resource_kind : string;
  resource_request_operation : string;
  accepted : bool;
  mutated : bool;
  error_code : option N
}.

(* ------------------------------------------------------------------ *)
(** ** Effects: a writer monad over the observable events *)

Inductive Level := LInfo | LError.

Inductive Event :=
| ELog (lvl : Level) (msg : string)
  (** the [info!] line of Monitor mode with its fields *)
| EMonitorLog (pid : string) (atm : bool) (resp : AdmissionResponse)
  (** one call of [PolicyEvaluator::validate] *)
| EValidate (evaluator_id : string)
  (** one [send] on a reply sink *)
| ESend (sink : nat) (payload : option AdmissionResponse)
| ERecordLatency (pe : PolicyEvaluation)
| EAddEvaluation (pe : PolicyEvaluation).

Definition W (A : Type) : Type := (A * list Event)%type.

Global Instance W_ret : MRet W := fun A a => (a, []).
Global Instance W_bind : MBind W := fun A B (k : A -> W B) (m : W A) =>
  let '(a, l1) := m in let '(b, l2) := k a in (b, app l1 l2).

Definition tell (e : Event) : W unit := (tt, [e]).

(** [oneshot::Sender::send]: fails, handing the value back, when the
    receiver was dropped. *)
Definition send (s : Sink) (p : option AdmissionResponse)
  : W (result unit (option AdmissionResponse)) :=
  (if receiver_alive s then Ok tt else Err p, [ESend (sink_id s) p]).

(** [PolicyEvaluator::validate], recorded as an event. *)
Definition validate (pe : PolicyEvaluator) (json : Value) : W AdmissionResponse :=
  (policy_evaluator_validate pe json, [EValidate (policy_evaluator_policy_id pe)]).

(* ------------------------------------------------------------------ *)
(** ** The response shaper: [Worker::validation_response_with_constraints] *)

Definition rejection_message (policy_id0 : string) : string :=
  "Request rejected by policy " +:+ policy_id0 +:+
  ". The policy attempted to mutate the request, but it is currently configured to not allow mutations.".

Definition validation_response_with_constraints (policy_id0 : string)
  (policy_mode0 : PolicyMode) (allowed_to_mutate0 : bool)
  (validation_response : AdmissionResponse) : W AdmissionResponse :=
  match policy_mode0 with
  | Protect =>
      if is_some (patch validation_response) && negb allowed_to_mutate0 then
        mret {| allowed := false;
                status := Some {| message := Some (rejection_message policy_id0);
                                  code := None |};
                patch := None;
                patch_type := None;
                uid := uid validation_response;
                audit_annotations := audit_annotations validation_response;
                warnings := warnings validation_response |}
      else mret validation_response
  | Monitor =>
      tell (EMonitorLog policy_id0 allowed_to_mutate0 validation_response) ;;
      mret {| allowed := true;
              patch_type := None;
              patch := None;
              status := None;
              uid := uid validation_response;
              audit_annotations := audit_annotations validation_response;
              warnings := warnings validation_response |}
  end.

(** Lines 210-221 of [Worker::run]: the namespace override. *)
Definition namespace_override (always_accept : option string)
  (req_namespace : option string) (validation_response : AdmissionResponse)
  : AdmissionResponse :=
  match always_accept with
  | Some ns =>
      if bool_decide (req_namespace = Some ns) then
        {| allowed := true;
           uid := uid validation_response;
           patch_type := patch_type validation_response;
           patch := patch validation_response;
           status := status validation_response;
           audit_annotations := audit_annotations validation_response;
           warnings := warnings validation_response |}
      else validation_response
  | None => validation_response
  end.

(** The response shaper as one function: mode projection, then the
    namespace override, as [Worker::run] composes them. *)
Definition shape (policy_id0 : string) (mode : PolicyMode) (atm : bool)
  (accept_ns : option string) (raw : AdmissionResponse)
  (req_namespace : option string) : AdmissionResponse :=
  namespace_override accept_ns req_namespace
    (validation_response_with_constraints policy_id0 mode atm raw).1.

(* ------------------------------------------------------------------ *)
(** ** The HTTP front-end: [api::validation] *)

Module Api.

(** [ServerErrorResponse], serialized with camelCase field names. *)
Record ServerErrorResponse := { message : string }.

(** The JSON body of a reply. *)
Inductive Body :=
| BodyError (e : ServerErrorResponse)
| BodyReview (r : AdmissionReview).

(** [warp::reply::with_status(warp::reply::json(..), code)]. *)
Record Reply := {
  reply_body : Body;
  reply_status : N
}.

Definition with_status (b : Body) (s : N) : Reply :=
  {| reply_body := b; reply_status := s |}.

(** What the handler observes of the pool: the queue [send] failed, or
    the one-shot receive returned (its [Err] is a dropped sender). *)
Inductive Dispatch :=
| SendFailed
| Received (r : result (option AdmissionResponse) unit).

Definition validation (policy_id0 : string) (admission_review : AdmissionReview)
  (tx : EvalRequest -> Dispatch) : Reply :=
  match request admission_review with
  | None =>
      with_status
        (BodyError {| message := "No Request object defined inside AdmissionReview object" |})
        400
  | Some adm_req =>
      let eval_req := {| policy_id := policy_id0;
                         req := adm_req;
                         resp_chan := {| sink_id := 0; receiver_alive := true |} |} in
      match tx eval_req with
      | SendFailed =>
          with_status
            (BodyError {| message := "error while sending request from API to Worker pool" |})
            500
      | Received (Ok (Some vr)) =>
          with_status (BodyReview (AdmissionReview_new_with_response vr)) 200
      | Received (Ok None) =>
          with_status (BodyError {| message := "requested policy not known" |}) 404
      | Received (Err _) =>
          with_status (BodyError {| message := "broken channel" |}) 500
      end
  end.

(** serde_json's string escaping: quote and backslash are escaped, the
    control characters get their short escapes or [\u00XX] with
    lower-case hex digits. *)
Definition dq : ascii := ascii_of_nat 34.
Definition bsl : ascii := ascii_of_nat 92.

Definition hex_digit (n : nat) : ascii :=
  if Nat.ltb n 10 then ascii_of_nat (48 + n) else ascii_of_nat (87 + n).

Definition escape_char (c : ascii) : string :=
  let n := nat_of_ascii c in
  if Nat.eqb n 34 then String bsl (String dq EmptyString)
  else if Nat.eqb n 92 then String bsl (String bsl EmptyString)
  else if Nat.eqb n 8 then String bsl "b"
  else if Nat.eqb n 9 then String bsl "t"
  else if Nat.eqb n 10 then String bsl "n"
  else if Nat.eqb n 12 then String bsl "f"
  else if Nat.eqb n 13 then String bsl "r"
  else if Nat.ltb n 32 then
    String bsl ("u00" +:+ String (hex_digit (Nat.div n 16))
                            (String (hex_digit (Nat.modulo n 16)) EmptyString))
  else String c EmptyString.

Fixpoint escape (s : string) : string :=
  match s with
  | EmptyString => EmptyString
  | String c rest => escape_char c +:+ escape rest
  end.

Definition json_string (s : string) : string :=
  String dq (escape s +:+ String dq EmptyString).

(** [serde_json::to_string] of a [ServerErrorResponse]. *)
Definition render_server_error (e : ServerErrorResponse) : string :=
  "{" +:+ json_string "message" +:+ ":" +:+ json_string (message e) +:+ "}".

End Api.

(* ------------------------------------------------------------------ *)
(** ** The worker loop: [Worker::run] *)

(** [StatusCode::BAD_REQUEST.as_u16()]. *)
Definition BAD_REQUEST : N := 400.

Definition serialize_error_message (e : SerdeError) : string :=
  "Failed to serialize AdmissionReview: " +:+ serde_error_debug e.

Section WorkerLoop.

(** [serde_json::to_value] on an admission request; it may fail. *)
Variable to_value : AdmissionRequest -> result Value SerdeError.

(** The body of the [while let] loop for one dequeued request. *)
Definition handle_request (w : Worker) (r : EvalRequest) : W unit :=
  res ← match evaluators w !! policy_id r with
    | Some pews =>
        match to_value (req r) with
        | Ok json =>
            let policy_name0 := policy_evaluator_policy_id (policy_evaluator pews) in
            let policy_mode0 := policy_mode pews in
            let allowed_to_mutate0 := allowed_to_mutate pews in
            vanilla_validation_response ← validate (policy_evaluator pews) json;
            let error_code0 :=
              match status vanilla_validation_response with
              | Some st => code st
              | None => None
              end in
            validation_response ←
              validation_response_with_constraints (policy_id r) policy_mode0
                allowed_to_mutate0 vanilla_validation_response;
            let validation_response :=
              namespace_override (always_accept_admission_reviews_on_namespace pews)
                (namespace (req r)) validation_response in
            let accepted0 := allowed vanilla_validation_response in
            let mutated0 := is_some (patch vanilla_validation_response) in
            res ← send (resp_chan r) (Some validation_response);
            let policy_evaluation :=
              {| policy_name := policy_name0;
                 pe_policy_mode := policy_mode0;
                 resource_namespace := namespace (req r);
                 resource_kind := kind (default GroupVersionKind_default (request_kind (req r)));
                 resource_request_operation := operation (req r);
                 accepted := accepted0;
                 mutated := mutated0;
                 error_code := error_code0 |} in
            tell (ERecordLatency policy_evaluation) ;;
            tell (EAddEvaluation policy_evaluation) ;;
            mret res
        | Err e =>
            let error_msg := serialize_error_message e in
            tell (ELog LError error_msg) ;;
            send (resp_chan r)
              (Some (AdmissionResponse_reject (policy_id r) error_msg BAD_REQUEST))
        end
    | None => send (resp_chan r) None
    end;
  if is_err res then tell (ELog LError "receiver dropped") else mret tt.

(** [Worker::run]: drain the queue, one request at a time. *)
Fixpoint run (w : Worker) (queue : list EvalRequest) : W unit :=
  match queue with
  | [] => mret tt
  | r :: rest => handle_request w r ;; run w rest
  end.

(** The payload of the first send on a given sink, if any. *)
Fixpoint first_send (s : nat) (evs : list Event) : option (option AdmissionResponse) :=
  match evs with
  | [] => None
  | ESend s' p :: rest => if Nat.eqb s s' then Some p else first_send s rest
  | _ :: rest => first_send s rest
  end.

(** The pool seen from the handler: a worker takes the request, and the
    handler receives what the worker sent on its sink (a sink dropped
    unused is a receive error). *)
Definition worker_dispatch (w : Worker) (r : EvalRequest) : Api.Dispatch :=
  match first_send (sink_id (resp_chan r)) (handle_request w r).2 with
  | Some p => Api.Received (Ok p)
  | None => Api.Received (Err tt)
  end.

(** One HTTP request served end to end by a worker. *)
Definition serve (w : Worker) (policy_id0 : string) (review : AdmissionReview)
  : Api.Reply :=
  Api.validation policy_id0 review (worker_dispatch w).

End WorkerLoop.

(* ------------------------------------------------------------------ *)
(** ** Building a worker: [Worker::new] and [PolicyErrors] *)

Module Settings.

(** Modelled from the spec: [crate::settings::Policy] (not under src/):
    the artifact locator, the opaque settings, the mode and the optional
    mutation permission. *)
Record Policy := {
  url : string;
  settings : list (string * Value);
  policy_mode : PolicyMode;
  allowed_to_mutate : option bool
}.

End Settings.

(** [PolicyErrors(HashMap<String, String>)]: policy id to error text. *)
Record PolicyErrors := mkPolicyErrors { policy_errors : gmap string string }.

(** [impl fmt::Display for PolicyErrors]: every entry as "[policy: error]",
    joined with ", " in the map's iteration order. *)
Definition PolicyErrors_fmt (pe : PolicyErrors) : string :=
  String.concat ", "
    (map (fun '(policy, error) => "[" +:+ policy +:+ ": " +:+ error +:+ "]")
       (map_to_list (policy_errors pe))).

Section WorkerNew.

(** The wasmtime engine, its fallible constructor (the error kept as its
    [{:?}] rendering), and [worker_pool::build_policy_evaluator] for the
    fixed precompiled policies and callback channel. *)
Variable Engine : Type.
Variable engine_new : result Engine string.
Variable build_policy_evaluator : string -> Settings.Policy -> Engine -> result PolicyEvaluator string.
Variable always_accept_admission_reviews_on_namespace0 : option string.

Definition evaluator_with_settings (policy : Settings.Policy) (pe : PolicyEvaluator)
  : PolicyEvaluatorWithSettings :=
  {| policy_evaluator := pe;
     policy_mode := Settings.policy_mode policy;
     allowed_to_mutate := default false (Settings.allowed_to_mutate policy);
     always_accept_admission_reviews_on_namespace := always_accept_admission_reviews_on_namespace0 |}.

Definition build_error_message (id e : string) : string :=
  "[" +:+ id +:+ "] could not create PolicyEvaluator: " +:+ e.

(** One iteration of the [for (id, policy) in policies.iter()] loop. *)
Definition new_policy_step (engine : Engine)
  (acc : gmap string PolicyEvaluatorWithSettings * gmap string string)
  (entry : string * Settings.Policy)
  : gmap string PolicyEvaluatorWithSettings * gmap string string :=
  let '(evs, evs_errors) := acc in
  let '(id, policy) := entry in
  match build_policy_evaluator id policy engine with
  | Ok pe => (<[id := evaluator_with_settings policy pe]> evs, evs_errors)
  | Err e => (evs, <[id := build_error_message id e]> evs_errors)
  end.

(** [Worker::new]; the policies are iterated in the map's own order. *)
Definition Worker_new (policies : gmap string Settings.Policy) : result Worker PolicyErrors :=
  match engine_new with
  | Err e => Err (mkPolicyErrors {[ "*" := "Cannot create wasmtime::Engine: " +:+ e ]})
  | Ok engine =>
      let '(evs, evs_errors) := foldl (new_policy_step engine) (∅, ∅) (map_to_list policies) in
      if bool_decide (evs_errors = ∅) then Ok {| evaluators := evs |}
      else Err (mkPolicyErrors evs_errors)
  end.

(** What one policy contributes: its evaluator with settings, or its
    error message. *)
Definition built_entry (engine : Engine) (id : string) (policy : Settings.Policy)
  : option PolicyEvaluatorWithSettings :=
  match build_policy_evaluator id policy engine with
  | Ok pe => Some (evaluator_with_settings policy pe)
  | Err _ => None
  end.

Definition failed_entry (engine : Engine) (id : string) (policy : Settings.Policy)
  : option string :=
  match build_policy_evaluator id policy engine with
  | Ok _ => None
  | Err e => Some (build_error_message id e)
  end.

End WorkerNew.

(* ------------------------------------------------------------------ *)
(** ** Trace span fields recorded by the handler *)

Inductive FieldValue :=
| FStr (s : string)
| FBool (b : bool)
| FInt (n : N).

(** [populate_span_with_policy_evaluation_results]: the span fields it
    records, in order. *)
Definition populate_span_with_policy_evaluation_results (response0 : AdmissionResponse)
  : list (string * FieldValue) :=
  [("allowed", FBool (allowed response0));
   ("mutated", FBool (is_some (patch response0)))] ++
  match status response0 with
  | Some st =>
      match code st with Some c => [("response_code", FInt c)] | None => [] end ++
      match message st with Some m => [("response_message", FStr m)] | None => [] end
  | None => []
  end.

(* ------------------------------------------------------------------ *)
(** ** Sample inputs (the scenarios of the test table) *)

Definition sample_request (uid0 : string) (ns : option string) : AdmissionRequest :=
  {| req_uid := uid0;
     req_kind := {| group := ""; version := "v1"; kind := "Pod" |};
     req_resource := {| res_group := ""; res_version := "v1"; resource := "pods" |};
     sub_resource := None;
     name := Some "nginx";
     namespace := ns;
     operation := "CREATE";
     request_kind := None;
     object := "{}" |}.

Definition mk_response (uid0 : string) (allowed0 : bool) (patch0 patch_type0 : option string)
  (status0 : option AdmissionResponseStatus) : AdmissionResponse :=
  {| uid := uid0; allowed := allowed0; patch_type := patch_type0; patch := patch0;
     status := status0; audit_annotations := None; warnings := None |}.

(** Raw verdict of scenarios 1 and 2: allowed with a patch. *)
Definition raw_mutating : AdmissionResponse :=
  mk_response "U1" true (Some "P") (Some "application/json-patch+json") None.

(** Raw verdict of scenario 3. *)
Definition raw_rejecting : AdmissionResponse :=
  mk_response "U1" false None None (Some {| message := Some "bad"; code := Some 500%N |}).

Example scenario_1 :
  allowed (shape "psp-caps" Protect false None raw_mutating (Some "dev")) = false /\
  status (shape "psp-caps" Protect false None raw_mutating (Some "dev")) =
    Some {| message := Some (rejection_message "psp-caps"); code := None |}.
Proof. split; reflexivity. Qed.

Example scenario_2 :
  shape "psp-caps" Protect true None raw_mutating (Some "dev") = raw_mutating.
Proof. reflexivity. Qed.

Example scenario_3 :
  shape "psp-caps" Monitor false None raw_rejecting (Some "dev") =
  mk_response "U1" true None None None.
Proof. reflexivity. Qed.

Example scenario_4 :
  shape "psp-caps" Protect false (Some "kube-system")
    (mk_response "U1" false None None (Some {| message := Some "no"; code := None |}))
    (Some "kube-system") =
  mk_response "U1" true None None (Some {| message := Some "no"; code := None |}).
Proof. reflexivity. Qed.

(* ------------------------------------------------------------------ *)
(** ** Claims about the response shaper *)

(** C1: in Protect mode, a raw response carrying a patch from a policy
    that may not mutate becomes a rejection: not allowed, no patch, no
    patch type, and a status with no code and exactly the message
    "Request rejected by policy <id>. The policy attempted to mutate the
    request, but it is currently configured to not allow mutations." *)
Theorem protect_rejects_disallowed_mutation (pid : string) (raw : AdmissionResponse)
  (p : string) :
  patch raw = Some p ->
  let out := (validation_response_with_constraints pid Protect false raw).1 in
  allowed out = false /\ patch out = None /\ patch_type out = None /\
  status out =
    Some {| message := Some ("Request rejected by policy " +:+ pid +:+
              ". The policy attempted to mutate the request, but it is currently configured to not allow mutations.");
            code := None |}.
Proof. intros Hp. simpl. rewrite Hp. simpl. repeat split. Qed.

Lemma protect_rejects_disallowed_mutation_witness :
  patch raw_mutating = Some "P" /\
  let out := (validation_response_with_constraints "psp-caps" Protect false raw_mutating).1 in
  allowed out = false /\ patch out = None /\ patch_type out = None /\
  status out =
    Some {| message := Some ("Request rejected by policy " +:+ "psp-caps" +:+
              ". The policy attempted to mutate the request, but it is currently configured to not allow mutations.");
            code := None |}.
Proof.
  split; [reflexivity |].
  exact (protect_rejects_disallowed_mutation "psp-caps" raw_mutating "P" eq_refl).
Defined.

(** C2: in Monitor mode with no namespace override, the response is
    allowed and carries no patch, no patch type and no status, whatever
    the raw verdict and the mutation permission. *)
Theorem monitor_always_allows (pid : string) (atm : bool) (raw : AdmissionResponse)
  (req_ns : option string) :
  let out := shape pid Monitor atm None raw req_ns in
  allowed out = true /\ patch out = None /\ patch_type out = None /\ status out = None.
Proof. simpl. repeat split. Qed.

(** C6: in Protect mode with no namespace override, the shaper returns
    the raw response unchanged when it carries no patch (whatever the
    mutation permission) and whenever the policy may mutate. *)
Theorem protect_identity_without_guard (pid : string) :
  (forall (atm : bool) (raw : AdmissionResponse) (req_ns : option string),
     patch raw = None -> shape pid Protect atm None raw req_ns = raw) /\
  (forall (raw : AdmissionResponse) (req_ns : option string),
     shape pid Protect true None raw req_ns = raw).
Proof.
  split.
  - intros atm raw req_ns Hp. unfold shape; simpl. rewrite Hp. reflexivity.
  - intros raw req_ns. unfold shape; simpl. rewrite andb_false_r. reflexivity.
Qed.

Lemma protect_identity_without_guard_witness :
  patch raw_rejecting = None /\
  shape "psp-caps" Protect false None raw_rejecting (Some "dev") = raw_rejecting.
Proof.
  split; [reflexivity |].
  apply (proj1 (protect_identity_without_guard "psp-caps")). reflexivity.
Defined.

(** C5: when the override namespace is set and equals the request's
    namespace, the final response is the mode projection with [allowed]
    set to true and every other field (patch included) kept. *)
Theorem namespace_override_allows (pid : string) (mode : PolicyMode) (atm : bool)
  (raw : AdmissionResponse) (ns : string) :
  let base := (validation_response_with_constraints pid mode atm raw).1 in
  shape pid mode atm (Some ns) raw (Some ns) =
  {| uid := uid base; allowed := true; patch_type := patch_type base;
     patch := patch base; status := status base;
     audit_annotations := audit_annotations base; warnings := warnings base |}.
Proof.
  simpl. unfold shape, namespace_override.
  rewrite bool_decide_eq_true_2 by reflexivity. reflexivity.
Qed.

(** C9: an override namespace that is not the request's namespace (or a
    request without namespace) changes nothing: the result is the one
    obtained with no override configured. *)
Theorem namespace_override_noop (pid : string) (mode : PolicyMode) (atm : bool)
  (raw : AdmissionResponse) (nsA : string) (req_ns : option string) :
  req_ns <> Some nsA ->
  shape pid mode atm (Some nsA) raw req_ns = shape pid mode atm None raw req_ns.
Proof.
  intros Hne. unfold shape, namespace_override.
  rewrite bool_decide_eq_false_2 by exact Hne. reflexivity.
Qed.

Lemma namespace_override_noop_witness :
  (None : option string) <> Some "kube-system" /\
  shape "psp-caps" Protect false (Some "kube-system") raw_rejecting None =
  shape "psp-caps" Protect false None raw_rejecting None.
Proof.
  split; [discriminate |].
  apply namespace_override_noop. discriminate.
Defined.

(** C10: every branch of the mode projection keeps the fields other than
    [allowed], [patch], [patch_type] and [status]: the uid, the audit
    annotations and the warnings of the raw response. *)
Theorem shaper_frame (pid : string) (mode : PolicyMode) (atm : bool)
  (raw : AdmissionResponse) :
  let out := (validation_response_with_constraints pid mode atm raw).1 in
  uid out = uid raw /\ audit_annotations out = audit_annotations raw /\
  warnings out = warnings raw.
Proof.
  simpl. destruct mode; simpl.
  - destruct (is_some (patch raw) && negb atm); simpl; repeat split.
  - repeat split.
Qed.

(* ------------------------------------------------------------------ *)
(** ** The three branches of the worker loop *)

Open Scope list_scope.

(** The log line emitted after a failed send. *)
Definition dropped_log (s : Sink) : list Event :=
  if receiver_alive s then [] else [ELog LError "receiver dropped"].

(** The sinks sent on, in order. *)
Fixpoint sends (evs : list Event) : list nat :=
  match evs with
  | [] => []
  | ESend s _ :: rest => s :: sends rest
  | _ :: rest => sends rest
  end.

Lemma sends_app (l1 l2 : list Event) : sends (l1 ++ l2) = sends l1 ++ sends l2.
Proof. induction l1 as [|e l1 IH]; [reflexivity|]. destruct e; simpl; rewrite ?IH; reflexivity. Qed.

Lemma shaper_no_send (pid : string) (mode : PolicyMode) (atm : bool) (raw : AdmissionResponse) :
  sends (validation_response_with_constraints pid mode atm raw).2 = [].
Proof. destruct mode; simpl; [destruct (is_some (patch raw) && negb atm)|]; reflexivity. Qed.

Lemma shaper_no_validate (pid : string) (mode : PolicyMode) (atm : bool) (raw : AdmissionResponse)
  (id : string) :
  EValidate id ∉ (validation_response_with_constraints pid mode atm raw).2.
Proof.
  destruct mode; simpl; [destruct (is_some (patch raw) && negb atm)|]; simpl;
    rewrite ?list_elem_of_cons; set_solver.
Qed.

Section Branches.
Variable to_value : AdmissionRequest -> result Value SerdeError.
Variable w : Worker.
Variable r : EvalRequest.

Lemma handle_request_unknown :
  evaluators w !! policy_id r = None ->
  (handle_request to_value w r).2 = ESend (sink_id (resp_chan r)) None :: dropped_log (resp_chan r).
Proof.
  intros H. unfold handle_request, dropped_log. rewrite H. simpl.
  destruct (receiver_alive (resp_chan r)); reflexivity.
Qed.

Lemma handle_request_serialize_error (pews : PolicyEvaluatorWithSettings) (e : SerdeError) :
  evaluators w !! policy_id r = Some pews ->
  to_value (req r) = Err e ->
  (handle_request to_value w r).2 =
    [ELog LError (serialize_error_message e);
     ESend (sink_id (resp_chan r))
       (Some (AdmissionResponse_reject (policy_id r) (serialize_error_message e) BAD_REQUEST))]
    ++ dropped_log (resp_chan r).
Proof.
  intros H1 H2. unfold handle_request, dropped_log. rewrite H1, H2. simpl.
  destruct (receiver_alive (resp_chan r)); reflexivity.
Qed.

Lemma handle_request_evaluated (pews : PolicyEvaluatorWithSettings) (json : Value) :
  evaluators w !! policy_id r = Some pews ->
  to_value (req r) = Ok json ->
  let raw := policy_evaluator_validate (policy_evaluator pews) json in
  let sh := validation_response_with_constraints (policy_id r) (policy_mode pews)
              (allowed_to_mutate pews) raw in
  let vr := namespace_override (always_accept_admission_reviews_on_namespace pews)
              (namespace (req r)) sh.1 in
  exists pe : PolicyEvaluation,
    (handle_request to_value w r).2 =
      [EValidate (policy_evaluator_policy_id (policy_evaluator pews))] ++ sh.2 ++
      [ESend (sink_id (resp_chan r)) (Some vr); ERecordLatency pe; EAddEvaluation pe]
      ++ dropped_log (resp_chan r).
Proof.
  intros H1 H2. unfold handle_request, dropped_log. rewrite H1, H2. simpl.
  destruct (validation_response_with_constraints _ _ _ _) as [v evs]. simpl.
  eexists. destruct (receiver_alive (resp_chan r)); simpl; rewrite <- ?app_assoc; reflexivity.
Qed.

End Branches.

(** The metric events of a trace: latency samples and evaluation counts. *)
Fixpoint metric_events (evs : list Event) : list Event :=
  match evs with
  | [] => []
  | ERecordLatency pe :: rest => ERecordLatency pe :: metric_events rest
  | EAddEvaluation pe :: rest => EAddEvaluation pe :: metric_events rest
  | _ :: rest => metric_events rest
  end.

Lemma bind_snd {A B} (m : W A) (k : A -> W B) : (m ≫= k).2 = m.2 ++ (k m.1).2.
Proof. destruct m as [a l1]. unfold mbind, W_bind. simpl. destruct (k a). reflexivity. Qed.

Lemma sends_dropped_log (s : Sink) : sends (dropped_log s) = [].
Proof. unfold dropped_log. destruct (receiver_alive s); reflexivity. Qed.

Lemma handle_request_shape (to_value : AdmissionRequest -> result Value SerdeError)
  (w : Worker) (r : EvalRequest) :
  sends (handle_request to_value w r).2 = [sink_id (resp_chan r)] /\
  exists pre, (handle_request to_value w r).2 = pre ++ dropped_log (resp_chan r).
Proof.
  destruct (evaluators w !! policy_id r) as [pews|] eqn:H1.
  - destruct (to_value (req r)) as [json|e] eqn:H2.
    + destruct (handle_request_evaluated to_value w r pews json H1 H2) as [pe ->].
      split.
      * rewrite !sends_app, shaper_no_send, sends_dropped_log. reflexivity.
      * eexists. rewrite !app_assoc. reflexivity.
    + rewrite (handle_request_serialize_error to_value w r pews e H1 H2).
      split; [rewrite sends_app, sends_dropped_log; reflexivity | eexists; reflexivity].
  - rewrite (handle_request_unknown to_value w r H1).
    split; [simpl; rewrite sends_dropped_log; reflexivity | exists [ESend (sink_id (resp_chan r)) None]; reflexivity].
Qed.

Lemma run_events (to_value : AdmissionRequest -> result Value SerdeError) (w : Worker)
  (queue : list EvalRequest) :
  (run to_value w queue).2 = concat (map (fun r => (handle_request to_value w r).2) queue).
Proof.
  induction queue as [|r rest IH]; [reflexivity|].
  simpl run. rewrite bind_snd, IH. reflexivity.
Qed.

Lemma first_send_skip (s : nat) (l l' : list Event) :
  sends l = [] -> first_send s (l ++ l') = first_send s l'.
Proof.
  induction l as [|e l IH]; [reflexivity|].
  destruct e; simpl; intros H; try discriminate; apply IH; exact H.
Qed.

Lemma shaper_uid (pid : string) (mode : PolicyMode) (atm : bool) (raw : AdmissionResponse) :
  uid (validation_response_with_constraints pid mode atm raw).1 = uid raw.
Proof. destruct mode; simpl; [destruct (is_some (patch raw) && negb atm)|]; reflexivity. Qed.

Lemma namespace_override_uid (a : option string) (ns : option string) (vr : AdmissionResponse) :
  uid (namespace_override a ns vr) = uid vr.
Proof. destruct a; simpl; [destruct (bool_decide _)|]; reflexivity. Qed.

(** On the evaluated path the 200 reply carries the uid of the raw
    verdict returned by the sandbox. *)
Lemma serve_evaluated_uid (to_value : AdmissionRequest -> result Value SerdeError)
  (w : Worker) (pid : string) (review : AdmissionReview) (adm : AdmissionRequest)
  (pews : PolicyEvaluatorWithSettings) (json : Value) :
  request review = Some adm -> evaluators w !! pid = Some pews -> to_value adm = Ok json ->
  exists vr,
    serve to_value w pid review =
      Api.with_status (Api.BodyReview (AdmissionReview_new_with_response vr)) 200 /\
    uid vr = uid (policy_evaluator_validate (policy_evaluator pews) json).
Proof.
  intros Hr H1 H2. unfold serve, Api.validation. rewrite Hr. unfold worker_dispatch.
  set (er := {| policy_id := pid; req := adm; resp_chan := {| sink_id := 0; receiver_alive := true |} |}).
  destruct (handle_request_evaluated to_value w er pews json H1 H2) as [pe ->].
  cbn [app first_send]. rewrite (first_send_skip _ _ _ (shaper_no_send _ _ _ _)). simpl.
  eexists. split; [reflexivity|].
  rewrite namespace_override_uid, shaper_uid. reflexivity.
Qed.

(* ------------------------------------------------------------------ *)
(** ** Sample worker *)

Definition sample_evaluator : PolicyEvaluatorWithSettings :=
  {| policy_evaluator := {| policy_evaluator_policy_id := "psp-caps";
                            policy_evaluator_validate := fun _ => raw_mutating |};
     policy_mode := Protect;
     allowed_to_mutate := false;
     always_accept_admission_reviews_on_namespace := None |}.

Definition sample_worker : Worker :=
  {| evaluators := {[ "psp-caps" := sample_evaluator ]} |}.

Definition sample_review : AdmissionReview :=
  {| request := Some (sample_request "U1" (Some "dev")); response := None |}.

Definition sample_eval_request (pid : string) (alive : bool) : EvalRequest :=
  {| policy_id := pid; req := sample_request "U1" (Some "dev");
     resp_chan := {| sink_id := 7; receiver_alive := alive |} |}.

(** A serializer that always succeeds, and one that always fails. *)
Definition to_value_ok (_ : AdmissionRequest) : result Value SerdeError := Ok Null.

Definition sample_serde_error : SerdeError :=
  {| serde_error_debug := "Error(key must be a string, line: 0, column: 0)" |}.

Definition to_value_failing (_ : AdmissionRequest) : result Value SerdeError :=
  Err sample_serde_error.

Example serve_scenario_1 :
  exists vr, serve to_value_ok sample_worker "psp-caps" sample_review =
    Api.with_status (Api.BodyReview (AdmissionReview_new_with_response vr)) 200 /\
    uid vr = "U1" /\ allowed vr = false.
Proof. eexists. split; [reflexivity | split; reflexivity]. Qed.

Example serve_scenario_5 :
  serve to_value_ok sample_worker "unknown" sample_review =
  Api.with_status (Api.BodyError {| Api.message := "requested policy not known" |}) 404.
Proof. reflexivity. Qed.

(* ------------------------------------------------------------------ *)
(** ** Claims about the worker loop and the HTTP front-end *)

(** C7: for a policy id absent from the worker's map, the worker sends
    [None] (the "not known" signal) and calls no evaluator; the handler
    turns it into a 404 whose body is {"message":"requested policy not
    known"}. *)
Theorem unknown_policy_not_known (to_value : AdmissionRequest -> result Value SerdeError)
  (w : Worker) (pid : string) (review : AdmissionReview) (adm : AdmissionRequest) :
  evaluators w !! pid = None ->
  request review = Some adm ->
  (forall r : EvalRequest, policy_id r = pid ->
     (handle_request to_value w r).2 = ESend (sink_id (resp_chan r)) None :: dropped_log (resp_chan r) /\
     (forall id : string, EValidate id ∉ (handle_request to_value w r).2)) /\
  serve to_value w pid review =
    Api.with_status (Api.BodyError {| Api.message := "requested policy not known" |}) 404 /\
  Api.render_server_error {| Api.message := "requested policy not known" |} =
    "{" +:+ String Api.dq ("message" +:+ String Api.dq (":" +:+ String Api.dq
      ("requested policy not known" +:+ String Api.dq "}"))).
Proof.
  intros Hw Hr. split; [|split].
  - intros r Hpid. rewrite <- Hpid in Hw.
    rewrite (handle_request_unknown to_value w r Hw). split; [reflexivity|].
    intros id. unfold dropped_log. destruct (receiver_alive (resp_chan r)); set_solver.
  - unfold serve, Api.validation. rewrite Hr. unfold worker_dispatch.
    rewrite handle_request_unknown by exact Hw. reflexivity.
  - reflexivity.
Qed.

Lemma unknown_policy_not_known_witness :
  evaluators sample_worker !! "unknown" = None /\
  request sample_review = Some (sample_request "U1" (Some "dev")) /\
  serve to_value_ok sample_worker "unknown" sample_review =
    Api.with_status (Api.BodyError {| Api.message := "requested policy not known" |}) 404.
Proof.
  split; [reflexivity | split; [reflexivity |]].
  apply (unknown_policy_not_known to_value_ok sample_worker "unknown" sample_review
           (sample_request "U1" (Some "dev"))); reflexivity.
Defined.

(** C8: each dequeued request gets exactly one send, on its own sink, in
    every branch; a failed send is followed by the "receiver dropped" log
    line, and the loop goes on with the rest of the queue. *)
Theorem run_replies_once (to_value : AdmissionRequest -> result Value SerdeError)
  (w : Worker) (queue : list EvalRequest) :
  (run to_value w queue).2 = concat (map (fun r => (handle_request to_value w r).2) queue) /\
  sends (run to_value w queue).2 = map (fun r => sink_id (resp_chan r)) queue /\
  (forall r : EvalRequest, sends (handle_request to_value w r).2 = [sink_id (resp_chan r)]) /\
  (forall r : EvalRequest, receiver_alive (resp_chan r) = false ->
     exists pre, (handle_request to_value w r).2 = pre ++ [ELog LError "receiver dropped"]).
Proof.
  split; [apply run_events|]. split; [|split].
  - rewrite run_events. induction queue as [|r rest IH]; [reflexivity|].
    simpl. rewrite sends_app, IH, (proj1 (handle_request_shape to_value w r)). reflexivity.
  - intros r. exact (proj1 (handle_request_shape to_value w r)).
  - intros r Hdead. destruct (proj2 (handle_request_shape to_value w r)) as [pre Hpre].
    exists pre. rewrite Hpre. unfold dropped_log. rewrite Hdead. reflexivity.
Qed.

Lemma run_replies_once_witness :
  receiver_alive (resp_chan (sample_eval_request "psp-caps" false)) = false /\
  exists pre, (handle_request to_value_ok sample_worker (sample_eval_request "psp-caps" false)).2 =
              pre ++ [ELog LError "receiver dropped"].
Proof.
  split; [reflexivity|].
  apply (run_replies_once to_value_ok sample_worker [sample_eval_request "unknown" false]).
  reflexivity.
Defined.

(** C4, as stated: a serialization failure is recorded in the
    evaluation metrics.  It is not: the failing branch emits no metric
    event at all (neither a latency sample nor an evaluation count). *)
Lemma serialize_failure_not_in_metrics :
  metric_events (handle_request to_value_failing sample_worker
                   (sample_eval_request "psp-caps" true)).2 = [].
Proof. reflexivity. Qed.

(** C4, amended: for a known policy whose request fails to serialize,
    the worker logs the error, calls no evaluator, sends one synthetic
    rejection (not allowed, code 400, message "Failed to serialize
    AdmissionReview: " followed by the error) and records no metrics. *)
Theorem serialize_failure_rejects (to_value : AdmissionRequest -> result Value SerdeError)
  (w : Worker) (r : EvalRequest) (pews : PolicyEvaluatorWithSettings) (e : SerdeError) :
  evaluators w !! policy_id r = Some pews ->
  to_value (req r) = Err e ->
  let evs := (handle_request to_value w r).2 in
  (exists vr, first_send (sink_id (resp_chan r)) evs = Some (Some vr) /\
     allowed vr = false /\
     status vr = Some {| message := Some ("Failed to serialize AdmissionReview: " +:+ serde_error_debug e);
                         code := Some 400%N |}) /\
  sends evs = [sink_id (resp_chan r)] /\
  (ELog LError ("Failed to serialize AdmissionReview: " +:+ serde_error_debug e) ∈ evs) /\
  (forall id : string, EValidate id ∉ evs) /\
  (forall pe : PolicyEvaluation, (ERecordLatency pe ∉ evs) /\ (EAddEvaluation pe ∉ evs)).
Proof.
  intros H1 H2 evs. subst evs.
  rewrite (handle_request_serialize_error to_value w r pews e H1 H2).
  split; [|split; [|split; [|split]]].
  - eexists. simpl. rewrite Nat.eqb_refl. split; [reflexivity|split; reflexivity].
  - simpl. rewrite sends_dropped_log. reflexivity.
  - left.
  - intros id. unfold dropped_log. destruct (receiver_alive (resp_chan r)); set_solver.
  - intros pe. unfold dropped_log. destruct (receiver_alive (resp_chan r)); set_solver.
Qed.

Lemma serialize_failure_rejects_witness :
  evaluators sample_worker !! policy_id (sample_eval_request "psp-caps" true) = Some sample_evaluator /\
  to_value_failing (req (sample_eval_request "psp-caps" true)) = Err sample_serde_error /\
  sends (handle_request to_value_failing sample_worker (sample_eval_request "psp-caps" true)).2 = [7].
Proof.
  split; [reflexivity | split; [reflexivity |]].
  apply (serialize_failure_rejects to_value_failing sample_worker
           (sample_eval_request "psp-caps" true) sample_evaluator sample_serde_error);
    reflexivity.
Defined.

(** C3: the 200 reply for a known policy whose request fails to
    serialize carries the policy id, not the request uid: the synthetic
    rejection passes [req.policy_id] as the [uid] argument of
    [AdmissionResponse::reject]. *)
Theorem synthetic_rejection_uid_is_policy_id :
  serve to_value_failing sample_worker "psp-caps" sample_review =
    Api.with_status
      (Api.BodyReview (AdmissionReview_new_with_response
         (AdmissionResponse_reject "psp-caps" (serialize_error_message sample_serde_error) 400)))
      200 /\
  uid (AdmissionResponse_reject "psp-caps" (serialize_error_message sample_serde_error) 400) <>
  req_uid (sample_request "U1" (Some "dev")).
Proof. split; [reflexivity | discriminate]. Qed.

(* ------------------------------------------------------------------ *)
(** ** Building a worker *)

Definition or_else {A} (o1 o2 : option A) : option A :=
  match o1 with Some x => Some x | None => o2 end.

Section WorkerNewProofs.
Variable Engine : Type.
Variable engine_new : result Engine string.
Variable build : string -> Settings.Policy -> Engine -> result PolicyEvaluator string.
Variable accept_ns : option string.

Lemma new_fold_lookup (engine : Engine) (l : list (string * Settings.Policy))
  (acc : gmap string PolicyEvaluatorWithSettings * gmap string string) :
  NoDup l.*1 ->
  forall id : string,
    (foldl (new_policy_step Engine build accept_ns engine) acc l).1 !! id =
      or_else ((list_to_map l : gmap string Settings.Policy) !! id ≫= built_entry Engine build accept_ns engine id) (acc.1 !! id) /\
    (foldl (new_policy_step Engine build accept_ns engine) acc l).2 !! id =
      or_else ((list_to_map l : gmap string Settings.Policy) !! id ≫= failed_entry Engine build engine id) (acc.2 !! id).
Proof.
  revert acc. induction l as [|[k p] l IH]; intros acc Hnd id.
  - simpl. rewrite lookup_empty. split; reflexivity.
  - simpl in Hnd. apply NoDup_cons in Hnd as [Hk Hnd].
    simpl foldl. rewrite (proj1 (IH _ Hnd id)), (proj2 (IH _ Hnd id)).
    destruct acc as [evs errs].
    destruct (decide (id = k)) as [->|Hne].
    + rewrite (not_elem_of_list_to_map_1 l k Hk). simpl.
      rewrite lookup_insert_eq. simpl.
      unfold built_entry, failed_entry.
      destruct (build k p engine); simpl; rewrite lookup_insert_eq; split; reflexivity.
    + simpl. rewrite lookup_insert_ne by congruence.
      destruct (build k p engine); simpl; rewrite ?lookup_insert_ne by congruence;
        split; reflexivity.
Qed.

Lemma new_fold_policies (engine : Engine) (policies : gmap string Settings.Policy) (id : string) :
  (foldl (new_policy_step Engine build accept_ns engine) (∅, ∅) (map_to_list policies)).1 !! id =
    policies !! id ≫= built_entry Engine build accept_ns engine id /\
  (foldl (new_policy_step Engine build accept_ns engine) (∅, ∅) (map_to_list policies)).2 !! id =
    policies !! id ≫= failed_entry Engine build engine id.
Proof.
  destruct (new_fold_lookup engine (map_to_list policies) (∅, ∅) (NoDup_fst_map_to_list _) id)
    as [H1 H2].
  rewrite H1, H2, list_to_map_to_list. simpl. rewrite !lookup_empty.
  split; [destruct (policies !! id ≫= _) | destruct (policies !! id ≫= _)]; reflexivity.
Qed.

End WorkerNewProofs.

Section WorkerNewResults.
Variable Engine : Type.
Variable build : string -> Settings.Policy -> Engine -> result PolicyEvaluator string.
Variable accept_ns : option string.

Lemma Worker_new_ok_inv (engine : Engine) (policies : gmap string Settings.Policy) (w : Worker) :
  Worker_new Engine (Ok engine) build accept_ns policies = Ok w ->
  (forall id, evaluators w !! id = policies !! id ≫= built_entry Engine build accept_ns engine id) /\
  (forall id p, policies !! id = Some p -> is_err (build id p engine) = false).
Proof.
  unfold Worker_new.
  pose proof (new_fold_policies Engine build accept_ns engine policies) as Hf.
  destruct (foldl _ (∅, ∅) (map_to_list policies)) as [evs errs]. simpl in Hf.
  case_bool_decide as Hemp; intros Hw; [|discriminate].
  injection Hw as <-. split.
  - intros id. exact (proj1 (Hf id)).
  - intros id p Hp. destruct (Hf id) as [_ H2]. rewrite Hemp, lookup_empty, Hp in H2.
    simpl in H2. unfold failed_entry in H2. destruct (build id p engine); [reflexivity|discriminate].
Qed.

End WorkerNewResults.

(** A handler backed by a worker answers 400 without a request, 200 for
    a known policy and 404 for an unknown one; never 500. *)
Lemma serve_status_helper (to_value : AdmissionRequest -> result Value SerdeError)
  (w : Worker) (pid : string) (review : AdmissionReview) :
  Api.reply_status (serve to_value w pid review) =
    match request review with
    | None => 400%N
    | Some _ => match evaluators w !! pid with Some _ => 200%N | None => 404%N end
    end.
Proof.
  unfold serve, Api.validation. destruct (request review) as [adm|]; [|reflexivity].
  unfold worker_dispatch.
  set (er := {| policy_id := pid; req := adm; resp_chan := {| sink_id := 0; receiver_alive := true |} |}).
  destruct (evaluators w !! pid) as [pews|] eqn:H1.
  - destruct (to_value adm) as [json|e] eqn:H2.
    + destruct (handle_request_evaluated to_value w er pews json H1 H2) as [pe ->].
      cbn [app first_send]. rewrite (first_send_skip _ _ _ (shaper_no_send _ _ _ _)).
      reflexivity.
    + rewrite (handle_request_serialize_error to_value w er pews e H1 H2). reflexivity.
  - rewrite (handle_request_unknown to_value w er H1). reflexivity.
Qed.

(** Evaluations counted in a trace. *)
Fixpoint evaluation_count (evs : list Event) : nat :=
  match evs with
  | [] => 0
  | EAddEvaluation _ :: rest => S (evaluation_count rest)
  | _ :: rest => evaluation_count rest
  end.

(** Whether a request reaches an evaluator: known policy and a request
    that serializes. *)
Definition evaluated_b (to_value : AdmissionRequest -> result Value SerdeError)
  (w : Worker) (r : EvalRequest) : bool :=
  match evaluators w !! policy_id r with
  | Some _ => match to_value (req r) with Ok _ => true | Err _ => false end
  | None => false
  end.

Lemma evaluation_count_app (l1 l2 : list Event) :
  evaluation_count (l1 ++ l2) = evaluation_count l1 + evaluation_count l2.
Proof. induction l1 as [|e l1 IH]; [reflexivity|]. destruct e; simpl; rewrite ?IH; reflexivity. Qed.

Lemma shaper_no_count (pid : string) (mode : PolicyMode) (atm : bool) (raw : AdmissionResponse) :
  evaluation_count (validation_response_with_constraints pid mode atm raw).2 = 0 /\
  metric_events (validation_response_with_constraints pid mode atm raw).2 = [].
Proof. destruct mode; simpl; [destruct (is_some (patch raw) && negb atm)|]; split; reflexivity. Qed.

Lemma dropped_log_no_count (s : Sink) :
  evaluation_count (dropped_log s) = 0 /\ metric_events (dropped_log s) = [].
Proof. unfold dropped_log. destruct (receiver_alive s); split; reflexivity. Qed.

Lemma metric_events_app (l1 l2 : list Event) :
  metric_events (l1 ++ l2) = metric_events l1 ++ metric_events l2.
Proof. induction l1 as [|e l1 IH]; [reflexivity|]. destruct e; simpl; rewrite ?IH; reflexivity. Qed.

Lemma handle_request_count (to_value : AdmissionRequest -> result Value SerdeError)
  (w : Worker) (r : EvalRequest) :
  evaluation_count (handle_request to_value w r).2 = if evaluated_b to_value w r then 1 else 0.
Proof.
  unfold evaluated_b.
  destruct (evaluators w !! policy_id r) as [pews|] eqn:H1.
  - destruct (to_value (req r)) as [json|e] eqn:H2.
    + destruct (handle_request_evaluated to_value w r pews json H1 H2) as [pe ->].
      rewrite !evaluation_count_app, (proj1 (shaper_no_count _ _ _ _)),
        (proj1 (dropped_log_no_count _)). reflexivity.
    + rewrite (handle_request_serialize_error to_value w r pews e H1 H2),
        evaluation_count_app, (proj1 (dropped_log_no_count _)). reflexivity.
  - rewrite (handle_request_unknown to_value w r H1). simpl.
    exact (proj1 (dropped_log_no_count _)).
Qed.

(* ------------------------------------------------------------------ *)
(** ** Further properties of the code *)

Definition sample_policy (mode : PolicyMode) (atm : option bool) : Settings.Policy :=
  {| Settings.url := "registry://ghcr.io/psp-caps:v1"; Settings.settings := [];
     Settings.policy_mode := mode; Settings.allowed_to_mutate := atm |}.

(** A policy build that fails for the id "broken" only. *)
Definition sample_build (id : string) (_ : Settings.Policy) (_ : unit)
  : result PolicyEvaluator string :=
  if bool_decide (id = "broken") then Err "module not found"
  else Ok {| policy_evaluator_policy_id := id;
             policy_evaluator_validate := fun _ => raw_mutating |}.

(** X1: when the engine cannot be created, [Worker::new] fails with the
    single error keyed "*", displayed as
    "[*: Cannot create wasmtime::Engine: <error>]". *)
Theorem Worker_new_engine_failure (Engine : Type)
  (build : string -> Settings.Policy -> Engine -> result PolicyEvaluator string)
  (accept_ns : option string) (policies : gmap string Settings.Policy) (e : string) :
  exists errs,
    Worker_new Engine (Err e) build accept_ns policies = Err errs /\
    policy_errors errs = {[ "*" := "Cannot create wasmtime::Engine: " +:+ e ]} /\
    PolicyErrors_fmt errs = "[*: Cannot create wasmtime::Engine: " +:+ e +:+ "]".
Proof.
  eexists. split; [reflexivity|]. split; [reflexivity|].
  unfold PolicyErrors_fmt. simpl. rewrite map_to_list_singleton. reflexivity.
Qed.

(** X2: when every policy builds, [Worker::new] succeeds and the worker
    maps exactly the configured ids, each to its evaluator with the
    policy's mode, its mutation permission (false when unset) and the
    configured override namespace. *)
Theorem Worker_new_success (Engine : Type) (engine : Engine)
  (build : string -> Settings.Policy -> Engine -> result PolicyEvaluator string)
  (accept_ns : option string) (policies : gmap string Settings.Policy) :
  (forall id p, policies !! id = Some p -> is_err (build id p engine) = false) ->
  exists w,
    Worker_new Engine (Ok engine) build accept_ns policies = Ok w /\
    forall id,
      evaluators w !! id =
        policies !! id ≫= fun p =>
          match build id p engine with
          | Ok pe => Some {| policy_evaluator := pe;
                             policy_mode := Settings.policy_mode p;
                             allowed_to_mutate := default false (Settings.allowed_to_mutate p);
                             always_accept_admission_reviews_on_namespace := accept_ns |}
          | Err _ => None
          end.
Proof.
  intros Hall. unfold Worker_new.
  pose proof (new_fold_policies Engine build accept_ns engine policies) as Hf.
  destruct (foldl _ (∅, ∅) (map_to_list policies)) as [evs errs]. simpl in Hf.
  assert (Hemp : errs = ∅).
  { apply map_eq. intros id. rewrite lookup_empty, (proj2 (Hf id)).
    destruct (policies !! id) as [p|] eqn:Hp; [|reflexivity]. simpl.
    unfold failed_entry. specialize (Hall id p Hp).
    destruct (build id p engine); [reflexivity|discriminate]. }
  rewrite bool_decide_eq_true_2 by exact Hemp.
  eexists. split; [reflexivity|]. intros id. simpl. rewrite (proj1 (Hf id)). reflexivity.
Qed.

Lemma Worker_new_success_witness :
  (forall id p, ({[ "psp-caps" := sample_policy Protect None ]} : gmap string Settings.Policy) !! id = Some p ->
     is_err (sample_build id p tt) = false) /\
  exists w,
    Worker_new unit (Ok tt) sample_build None {[ "psp-caps" := sample_policy Protect None ]} = Ok w /\
    forall id,
      evaluators w !! id =
        ({[ "psp-caps" := sample_policy Protect None ]} : gmap string Settings.Policy) !! id ≫= fun p =>
          match sample_build id p tt with
          | Ok pe => Some {| policy_evaluator := pe;
                             policy_mode := Settings.policy_mode p;
                             allowed_to_mutate := default false (Settings.allowed_to_mutate p);
                             always_accept_admission_reviews_on_namespace := None |}
          | Err _ => None
          end.
Proof.
  assert (H : forall id p, ({[ "psp-caps" := sample_policy Protect None ]} : gmap string Settings.Policy) !! id = Some p ->
     is_err (sample_build id p tt) = false).
  { intros id p Hp. apply lookup_singleton_Some in Hp as [<- <-]. reflexivity. }
  split; [exact H|].
  exact (Worker_new_success unit tt sample_build None _ H).
Defined.

(** X3: when some policy fails to build, [Worker::new] returns no worker
    but the errors of exactly the failing policies, each as
    "[<id>] could not create PolicyEvaluator: <error>". *)
Theorem Worker_new_failure (Engine : Type) (engine : Engine)
  (build : string -> Settings.Policy -> Engine -> result PolicyEvaluator string)
  (accept_ns : option string) (policies : gmap string Settings.Policy)
  (id : string) (p : Settings.Policy) (e : string) :
  policies !! id = Some p -> build id p engine = Err e ->
  exists errs,
    Worker_new Engine (Ok engine) build accept_ns policies = Err errs /\
    forall id',
      policy_errors errs !! id' =
        policies !! id' ≫= fun p' =>
          match build id' p' engine with
          | Ok _ => None
          | Err e' => Some ("[" +:+ id' +:+ "] could not create PolicyEvaluator: " +:+ e')
          end.
Proof.
  intros Hp Hb. unfold Worker_new.
  pose proof (new_fold_policies Engine build accept_ns engine policies) as Hf.
  destruct (foldl _ (∅, ∅) (map_to_list policies)) as [evs errs]. simpl in Hf.
  assert (Hne : errs <> ∅).
  { intros ->. destruct (Hf id) as [_ H2]. rewrite lookup_empty, Hp in H2. simpl in H2.
    unfold failed_entry in H2. rewrite Hb in H2. discriminate. }
  rewrite bool_decide_eq_false_2 by exact Hne.
  eexists. split; [reflexivity|]. intros id'. simpl. rewrite (proj2 (Hf id')). reflexivity.
Qed.

Lemma Worker_new_failure_witness :
  ({[ "broken" := sample_policy Monitor (Some true) ]} : gmap string Settings.Policy) !! "broken" =
    Some (sample_policy Monitor (Some true)) /\
  sample_build "broken" (sample_policy Monitor (Some true)) tt = Err "module not found" /\
  exists errs,
    Worker_new unit (Ok tt) sample_build None {[ "broken" := sample_policy Monitor (Some true) ]} = Err errs /\
    forall id',
      policy_errors errs !! id' =
        ({[ "broken" := sample_policy Monitor (Some true) ]} : gmap string Settings.Policy) !! id' ≫= fun p' =>
          match sample_build id' p' tt with
          | Ok _ => None
          | Err e' => Some ("[" +:+ id' +:+ "] could not create PolicyEvaluator: " +:+ e')
          end.
Proof.
  split; [reflexivity|]. split; [reflexivity|].
  apply (Worker_new_failure unit tt sample_build None _ "broken" (sample_policy Monitor (Some true))
           "module not found"); reflexivity.
Defined.

(** X4: the handler backed by a worker answers 400 when the review has
    no request, otherwise 200 for a policy id the worker knows and 404
    for one it does not; it never answers 500. *)
Theorem serve_status (to_value : AdmissionRequest -> result Value SerdeError)
  (w : Worker) (pid : string) (review : AdmissionReview) :
  Api.reply_status (serve to_value w pid review) =
    match request review with
    | None => 400%N
    | Some _ => match evaluators w !! pid with Some _ => 200%N | None => 404%N end
    end.
Proof. exact (serve_status_helper to_value w pid review). Qed.

(** X5: a worker built by [Worker::new] from a policy map answers a
    review carrying a request with 200 exactly for the configured policy
    ids and 404 for every other id. *)
Theorem Worker_new_serve_routes (Engine : Type) (engine : Engine)
  (build : string -> Settings.Policy -> Engine -> result PolicyEvaluator string)
  (accept_ns : option string) (policies : gmap string Settings.Policy) (w : Worker)
  (to_value : AdmissionRequest -> result Value SerdeError) (pid : string)
  (review : AdmissionReview) (adm : AdmissionRequest) :
  Worker_new Engine (Ok engine) build accept_ns policies = Ok w ->
  request review = Some adm ->
  Api.reply_status (serve to_value w pid review) =
    match policies !! pid with Some _ => 200%N | None => 404%N end.
Proof.
  intros Hw Hr. rewrite serve_status_helper, Hr.
  destruct (Worker_new_ok_inv Engine build accept_ns engine policies w Hw) as [Hl Hb].
  rewrite (Hl pid). destruct (policies !! pid) as [p|] eqn:Hp; [|reflexivity].
  simpl. unfold built_entry. specialize (Hb pid p Hp).
  destruct (build pid p engine); [reflexivity|discriminate].
Qed.

Lemma Worker_new_serve_routes_witness :
  Worker_new unit (Ok tt) sample_build None {[ "psp-caps" := sample_policy Protect None ]} =
    Ok {| evaluators := {[ "psp-caps" := evaluator_with_settings None (sample_policy Protect None)
                              {| policy_evaluator_policy_id := "psp-caps";
                                 policy_evaluator_validate := fun _ => raw_mutating |} ]} |} /\
  request sample_review = Some (sample_request "U1" (Some "dev")) /\
  Api.reply_status (serve to_value_ok
    {| evaluators := {[ "psp-caps" := evaluator_with_settings None (sample_policy Protect None)
                              {| policy_evaluator_policy_id := "psp-caps";
                                 policy_evaluator_validate := fun _ => raw_mutating |} ]} |}
    "other" sample_review) =
    match ({[ "psp-caps" := sample_policy Protect None ]} : gmap string Settings.Policy) !! "other" with
    | Some _ => 200%N
    | None => 404%N
    end.
Proof.
  split; [reflexivity|]. split; [reflexivity|].
  apply (Worker_new_serve_routes unit tt sample_build None
           {[ "psp-caps" := sample_policy Protect None ]} _ to_value_ok "other" sample_review
           (sample_request "U1" (Some "dev"))); reflexivity.
Defined.

(** X6: for a known policy whose request serializes, the worker records
    exactly one latency sample and one evaluation count, with the same
    labels, whether or not the reply could be delivered; [accepted],
    [mutated] and [error_code] describe the raw verdict of the sandbox,
    not the shaped reply. *)
Theorem evaluated_metrics_from_raw (to_value : AdmissionRequest -> result Value SerdeError)
  (w : Worker) (r : EvalRequest) (pews : PolicyEvaluatorWithSettings) (json : Value) :
  evaluators w !! policy_id r = Some pews ->
  to_value (req r) = Ok json ->
  let raw := policy_evaluator_validate (policy_evaluator pews) json in
  exists pe : PolicyEvaluation,
    metric_events (handle_request to_value w r).2 = [ERecordLatency pe; EAddEvaluation pe] /\
    policy_name pe = policy_evaluator_policy_id (policy_evaluator pews) /\
    pe_policy_mode pe = policy_mode pews /\
    resource_namespace pe = namespace (req r) /\
    resource_kind pe = kind (default GroupVersionKind_default (request_kind (req r))) /\
    resource_request_operation pe = operation (req r) /\
    accepted pe = allowed raw /\
    mutated pe = is_some (patch raw) /\
    error_code pe = (status raw ≫= code).
Proof.
  intros H1 H2 raw. unfold handle_request. rewrite H1, H2. simpl.
  pose proof (shaper_no_count (policy_id r) (policy_mode pews) (allowed_to_mutate pews) raw) as [_ Hm].
  fold raw. destruct (validation_response_with_constraints _ _ _ raw) as [v evs]. simpl in Hm.
  eexists. split.
  - destruct (receiver_alive (resp_chan r)); simpl;
      rewrite !metric_events_app, Hm; reflexivity.
  - simpl. repeat split; try (destruct (status raw); reflexivity).
Qed.

Lemma evaluated_metrics_from_raw_witness :
  evaluators sample_worker !! policy_id (sample_eval_request "psp-caps" false) = Some sample_evaluator /\
  to_value_ok (req (sample_eval_request "psp-caps" false)) = Ok Null /\
  length (metric_events (handle_request to_value_ok sample_worker
                           (sample_eval_request "psp-caps" false)).2) = 2.
Proof.
  split; [reflexivity|]. split; [reflexivity|].
  destruct (evaluated_metrics_from_raw to_value_ok sample_worker
              (sample_eval_request "psp-caps" false) sample_evaluator Null eq_refl eq_refl)
    as [pe [-> _]].
  reflexivity.
Defined.

(** X7: over a whole queue, the worker counts one evaluation per request
    that names a known policy and serializes, and none for the others
    (unknown policies, serialization failures). *)
Theorem run_evaluation_count (to_value : AdmissionRequest -> result Value SerdeError)
  (w : Worker) (queue : list EvalRequest) :
  evaluation_count (run to_value w queue).2 =
    length (List.filter (evaluated_b to_value w) queue).
Proof.
  rewrite run_events. induction queue as [|r rest IH]; [reflexivity|].
  simpl. rewrite evaluation_count_app, IH, handle_request_count.
  destruct (evaluated_b to_value w r); reflexivity.
Qed.

(** X8: the span fields recorded for a shaped reply: in Monitor mode only
    allowed = true and mutated = false (no response code or message); for
    a Protect-mode mutation rejection allowed = false, mutated = false and
    the rejection message, with no response code. *)
Theorem span_fields_of_shaped_reply (pid : string) (atm : bool) (raw : AdmissionResponse)
  (req_ns : option string) :
  populate_span_with_policy_evaluation_results (shape pid Monitor atm None raw req_ns) =
    [("allowed", FBool true); ("mutated", FBool false)] /\
  (forall p : string, patch raw = Some p ->
     populate_span_with_policy_evaluation_results (shape pid Protect false None raw req_ns) =
       [("allowed", FBool false); ("mutated", FBool false);
        ("response_message", FStr (rejection_message pid))]).
Proof.
  split; [reflexivity|].
  intros p Hp. unfold shape. simpl. rewrite Hp. reflexivity.
Qed.

Lemma span_fields_of_shaped_reply_witness :
  patch raw_mutating = Some "P" /\
  populate_span_with_policy_evaluation_results (shape "psp-caps" Protect false None raw_mutating None) =
    [("allowed", FBool false); ("mutated", FBool false);
     ("response_message", FStr (rejection_message "psp-caps"))].
Proof.
  split; [reflexivity|].
  apply (proj2 (span_fields_of_shaped_reply "psp-caps" false raw_mutating None) "P"). reflexivity.
Defined.
